(** * Theme toggle of the [ThemeSwitcher] logo and the [Nav] bar

    A shallow embedding of the two React components of the repository
    ([components/logos/ThemeSwitcher.tsx] and the [Nav] bar) together with
    the small part of the browser they touch: the class list of the
    document root, and [window.open].

    Hook state is made explicit: a component is a render function of its
    [useState] value, its layout effect and its event handlers are
    computations in a small state monad over the browser and the queue of
    pending [setIsDarkMode] calls of the instance that owns them.

    The repository holds two versions of [Nav]: [Nav] is the one with both
    link controls ("Prototype" and "Read More"), and the page is made of
    it; [Nav2] is the one with a single link, with the same hooks and the
    same [toggleDark]. [package.json], which both import, is a
    parameter. *)

From Stdlib Require Import String List Bool Arith Lia.
Import ListNotations.
Open Scope string_scope.

(** ** The browser *)

Module DOM.

(** [DOMTokenList]: an ordered set of class tokens. *)
Definition DOMTokenList := list string.

Definition contains (token : string) (l : DOMTokenList) : bool :=
  existsb (String.eqb token) l.

Definition remove (token : string) (l : DOMTokenList) : DOMTokenList :=
  filter (fun t => negb (String.eqb token t)) l.

(** [toggle(token)]: removes the token and answers [false] when it is
    there, appends it and answers [true] when it is not. *)
Definition toggle (token : string) (l : DOMTokenList) : DOMTokenList * bool :=
  if contains token l then (remove token l, false) else ((l ++ [token])%list, true).

Record Element := { classList : DOMTokenList }.

(** One call of [window.open(url, target, features)]. *)
Record OpenCall := { url : string; target : string; features : string }.

(** What the components can reach of the page: [document.documentElement]
    and the browsing contexts asked for through [window.open], oldest
    first. *)
Record Browser := {
  documentElement : Element;
  opened : list OpenCall
}.

End DOM.
Import DOM.

(** The theme marker: does the document root carry the class [dark]? *)
Definition marker (b : Browser) : bool :=
  contains "dark" (classList (documentElement b)).

(** ** Hooks *)

(** The argument of a [useState] setter: a value, or an updater applied to
    the state it finds. *)
Inductive SetStateAction :=
| Value (v : bool)
| Updater (f : bool -> bool).

Definition applyAction (prev : bool) (a : SetStateAction) : bool :=
  match a with
  | Value v => v
  | Updater f => f prev
  end.

(** What an effect or a handler runs against: the browser, and the queue of
    state updates of the instance it belongs to. *)
Record Ctx := { browser : Browser; pending : list SetStateAction }.

Definition M (A : Type) : Type := Ctx -> A * Ctx.

Definition ret {A} (a : A) : M A := fun c => (a, c).

Definition bind {A B} (m : M A) (k : A -> M B) : M B :=
  fun c => let (a, c') := m c in k a c'.

Notation "x <- m ;; k" := (bind m (fun x => k))
  (at level 61, m at next level, right associativity).
Notation "m ;;; k" := (bind m (fun _ => k))
  (at level 61, right associativity).

(** [el.classList.contains(token)] on the document root. *)
Definition classList_contains (token : string) : M bool :=
  fun c => (contains token (classList (documentElement (browser c))), c).

(** [el.classList.toggle(token)] on the document root. *)
Definition classList_toggle (token : string) : M bool :=
  fun c =>
    let (l, r) := toggle token (classList (documentElement (browser c))) in
    (r, {| browser := {| documentElement := {| classList := l |};
                         opened := opened (browser c) |};
           pending := pending c |}).

(** [window.open(url, target, features)]. *)
Definition window_open (u t f : string) : M unit :=
  fun c =>
    (tt, {| browser := {| documentElement := documentElement (browser c);
                          opened := (opened (browser c)
                                     ++ [{| url := u; target := t; features := f |}])%list |};
            pending := pending c |}).

(** The setter of [useState]: the update is queued. *)
Definition setIsDarkMode (a : SetStateAction) : M unit :=
  fun c => (tt, {| browser := browser c; pending := (pending c ++ [a])%list |}).

(** Runs an effect or a handler of an instance whose state is [s], then
    applies the queued updates in order, as the next render does. *)
Definition dispatch (m : M unit) (b : Browser) (s : bool) : Browser * bool :=
  let c := snd (m {| browser := b; pending := [] |}) in
  (browser c, fold_left applyAction (pending c) s).

(** ** Rendered output *)

Record Props := {
  className : option string;
  src : option string;
  alt : option string;
  variant : option string;
  onClick : option (M unit)
}.

#[warnings="-register-all"]
Inductive VNode :=
| Text (s : string)
| Elem (tag : string) (props : Props) (children : list VNode).

Definition noProps : Props :=
  {| className := None; src := None; alt := None; variant := None; onClick := None |}.

Definition withClass (c : string) : Props :=
  {| className := Some c; src := None; alt := None; variant := None; onClick := None |}.

Definition propsOf (v : VNode) : Props :=
  match v with
  | Text _ => noProps
  | Elem _ p _ => p
  end.

(** All the elements with tag [t] under [v] ([v] included), in document
    order. *)
Fixpoint select (t : string) (v : VNode) : list VNode :=
  match v with
  | Text _ => []
  | Elem t' _ ch =>
      ((if String.eqb t t' then [v] else []) ++ flat_map (select t) ch)%list
  end.

(** The text under [v], in document order. *)
Fixpoint textContent (v : VNode) : string :=
  match v with
  | Text s => s
  | Elem _ _ ch => String.concat "" (map textContent ch)
  end.

(** ** [ThemeSwitcher] *)

Module ThemeSwitcher.

(** [useState(false)] *)
Definition useState_init : bool := false.

(** The layout effect, run once after the first render. *)
Definition useLayoutEffect : M unit :=
  d <- classList_contains "dark" ;;
  setIsDarkMode (Value d).

Definition render (isDarkMode : bool) : VNode :=
  Elem "img"
    {| src := Some (if isDarkMode then "/botdw-white.png" else "/botdw-black.png");
       alt := Some "BotDW Logo";
       className := Some "h-10 w-auto transition-all duration-300 ease-in-out";
       variant := None; onClick := None |}
    [].

End ThemeSwitcher.

(** ** [Nav] *)

(** The two fields of [package.json] that [Nav] reads. *)
Record Package := { homepage : string; readmore : string }.

Module Nav.
Section WithPackage.

Variable pkg : Package.

(** [useState(false)] *)
Definition useState_init : bool := false.

(** The layout effect, run once after the first render. *)
Definition useLayoutEffect : M unit :=
  d <- classList_contains "dark" ;;
  setIsDarkMode (Value d).

Definition toggleDark : M unit :=
  classList_toggle "dark" ;;;
  setIsDarkMode (Updater (fun prev => negb prev)).

Definition Button (handler : M unit) (v c : string) (children : list VNode) : VNode :=
  Elem "Button"
    {| onClick := Some handler; variant := Some v; className := Some c;
       src := None; alt := None |}
    children.

(** [logo] is what the child [<ThemeSwitcher />] renders. *)
Definition render (isDarkMode : bool) (logo : VNode) : VNode :=
  Elem "div"
    (withClass "px-4 py-2 flex items-center h-16 md:h-20 lg:h-24 z-50 bg-card border-b border-border")
    [ Elem "div" (withClass "flex items-center gap-2")
        [ logo; Text " ";
          Elem "span" (withClass "text-md font-bold") [Text "BOT WORKS"] ];
      Elem "div" (withClass "ml-auto flex items-center gap-1")
        [ Button (window_open (homepage pkg) "_blank" "noopener noreferrer")
            "ghost" "ml-auto flex items-center gap-1.5"
            [ Elem "Hume" (withClass "size-4") [];
              Elem "span" noProps [Text "Prototype"] ];
          Button (window_open (readmore pkg) "_blank" "noopener noreferrer")
            "ghost" "ml-auto flex items-center gap-1.5"
            [ Elem "Github" (withClass "size-4") [];
              Elem "span" noProps [Text "Read More"] ];
          Button toggleDark
            "ghost" "ml-auto flex items-center gap-1.5"
            [ (if isDarkMode then Elem "Sun" (withClass "size-4") []
               else Elem "Moon" (withClass "size-4") []);
              Elem "span" noProps
                [Text (if isDarkMode then "Light" else "Dark"); Text " Mode"] ] ] ].

End WithPackage.
End Nav.

(** ** The page *)

(** A mounted component with its hook state; a [Nav] carries the state of
    the [ThemeSwitcher] it renders. *)
Inductive Instance :=
| ThemeSwitcherI (isDarkMode : bool)
| NavI (isDarkMode : bool) (logo : bool).

Record Page := { env : Browser; roots : list Instance }.

Inductive Event :=
| MountThemeSwitcher
| MountNav
| Click (root button : nat).

Section Page.

Variable pkg : Package.

Definition renderInstance (i : Instance) : VNode :=
  match i with
  | ThemeSwitcherI d => ThemeSwitcher.render d
  | NavI d logo => Nav.render pkg d (ThemeSwitcher.render logo)
  end.

(** The first render of a component: every hook state at its initial
    value. *)
Definition firstRender (e : Event) : option Instance :=
  match e with
  | MountThemeSwitcher => Some (ThemeSwitcherI ThemeSwitcher.useState_init)
  | MountNav => Some (NavI Nav.useState_init ThemeSwitcher.useState_init)
  | Click _ _ => None
  end.

(** The layout effects of a freshly rendered instance, children first,
    and the re-render that applies the state updates they queued; they
    run before the browser paints and before any event is handled. *)
Definition layoutEffects (b : Browser) (i : Instance) : Browser * Instance :=
  match i with
  | ThemeSwitcherI d =>
      let (b1, d1) := dispatch ThemeSwitcher.useLayoutEffect b d in
      (b1, ThemeSwitcherI d1)
  | NavI d logo =>
      let (b1, logo1) := dispatch ThemeSwitcher.useLayoutEffect b logo in
      let (b2, d2) := dispatch Nav.useLayoutEffect b1 d in
      (b2, NavI d2 logo1)
  end.

(** A click on the [k]-th [Button] of an instance runs its [onClick]
    against the state of the component that owns the handler: all the
    buttons are [Nav]'s own. *)
Definition click (b : Browser) (i : Instance) (k : nat) : Browser * Instance :=
  match nth_error (select "Button" (renderInstance i)) k with
  | Some btn =>
      match onClick (propsOf btn), i with
      | Some h, NavI d logo =>
          let (b1, d1) := dispatch h b d in (b1, NavI d1 logo)
      | _, _ => (b, i)
      end
  | None => (b, i)
  end.

Fixpoint updateNth {A} (n : nat) (x : A) (l : list A) : list A :=
  match l, n with
  | [], _ => []
  | _ :: t, O => x :: t
  | h :: t, S n' => h :: updateNth n' x t
  end.

Definition step (p : Page) (e : Event) : Page :=
  match e with
  | Click r k =>
      match nth_error (roots p) r with
      | Some i =>
          let (b1, i1) := click (env p) i k in
          {| env := b1; roots := updateNth r i1 (roots p) |}
      | None => p
      end
  | _ =>
      match firstRender e with
      | Some i0 =>
          let (b1, i1) := layoutEffects (env p) i0 in
          {| env := b1; roots := (roots p ++ [i1])%list |}
      | None => p
      end
  end.

Definition run (p : Page) (es : list Event) : Page := fold_left step es p.

End Page.

(** ** What is displayed *)

(** The [src] of every image under [v]. *)
Definition imgSrcs (v : VNode) : list (option string) :=
  map (fun n => src (propsOf n)) (select "img" v).

(** The buttons of [Nav], in document order: homepage, read more, theme. *)
Definition nthButton (k : nat) (v : VNode) : option VNode :=
  nth_error (select "Button" v) k.

Definition buttonLabel (k : nat) (v : VNode) : option string :=
  option_map textContent (nthButton k v).

(** The tag of the first child of the [k]-th button: its icon. *)
Definition buttonIcon (k : nat) (v : VNode) : option string :=
  match nthButton k v with
  | Some (Elem _ _ (Elem t _ _ :: _)) => Some t
  | _ => None
  end.

Definition themeButton : nat := 2.

(** Every local copy of the theme flag held by an instance. *)
Definition localFlags (i : Instance) : list bool :=
  match i with
  | ThemeSwitcherI d => [d]
  | NavI d logo => [d; logo]
  end.

(** [Nav]'s own copy. *)
Definition navFlag (i : Instance) : option bool :=
  match i with
  | ThemeSwitcherI _ => None
  | NavI d _ => Some d
  end.

(** The browser after [el.classList.toggle("dark")]. *)
Definition toggled (b : Browser) : Browser :=
  {| documentElement :=
       {| classList := fst (toggle "dark" (classList (documentElement b))) |};
     opened := opened b |}.

(** The browser after [window.open(u, "_blank", "noopener noreferrer")]. *)
Definition withOpened (u : string) (b : Browser) : Browser :=
  {| documentElement := documentElement b;
     opened := (opened b ++ [{| url := u; target := "_blank";
                                features := "noopener noreferrer" |}])%list |}.

(** The instance mounted last. *)
Definition lastMounted (p : Page) : option Instance := hd_error (rev (roots p)).

(** Sample values: a page loaded without and with the marker, and a
    package file. *)
Definition lightBrowser : Browser :=
  {| documentElement := {| classList := ["antialiased"] |}; opened := [] |}.

Definition darkBrowser : Browser :=
  {| documentElement := {| classList := ["antialiased"; "dark"] |}; opened := [] |}.

Definition samplePkg : Package :=
  {| homepage := "https://example.org/"; readmore := "https://example.org/readmore" |}.

Definition emptyPage (b : Browser) : Page := {| env := b; roots := [] |}.

(** The pages reached from a single [Nav] by clicks and by mounting logos:
    [Nav] first, then logos only. *)
Definition singleNav (p : Page) : Prop :=
  exists d logo rest,
    roots p = NavI d logo :: rest /\
    d = marker (env p) /\
    Forall (fun i => navFlag i = None) rest.

Definition noMountNav (e : Event) : bool :=
  match e with
  | MountNav => false
  | _ => true
  end.

(** ** The other version of [Nav] *)

(** The version of [Nav] with a single link control ("Star on GitHub"):
    the same hooks and handler, one button less. *)
Module Nav2.
Section WithPackage.

Variable pkg : Package.

(** [useState(false)] *)
Definition useState_init : bool := false.

(** The layout effect, run once after the first render. *)
Definition useLayoutEffect : M unit :=
  d <- classList_contains "dark" ;;
  setIsDarkMode (Value d).

Definition toggleDark : M unit :=
  classList_toggle "dark" ;;;
  setIsDarkMode (Updater (fun prev => negb prev)).

(** [logo] is what the child [<ThemeSwitcher />] renders. *)
Definition render (isDarkMode : bool) (logo : VNode) : VNode :=
  Elem "div"
    (withClass "px-4 py-2 flex items-center h-16 md:h-20 lg:h-24 z-50 bg-card border-b border-border")
    [ Elem "div" (withClass "flex items-center gap-2")
        [ logo; Text " ";
          Elem "span" (withClass "text-lg font-semibold") [Text "DIGITAL WORKS"] ];
      Elem "div" (withClass "ml-auto flex items-center gap-1")
        [ Nav.Button (window_open (homepage pkg) "_blank" "noopener noreferrer")
            "ghost" "ml-auto flex items-center gap-1.5"
            [ Elem "Github" (withClass "size-4") [];
              Elem "span" noProps [Text "Star on GitHub"] ];
          Nav.Button toggleDark
            "ghost" "ml-auto flex items-center gap-1.5"
            [ (if isDarkMode then Elem "Sun" (withClass "size-4") []
               else Elem "Moon" (withClass "size-4") []);
              Elem "span" noProps
                [Text (if isDarkMode then "Light" else "Dark"); Text " Mode"] ] ] ].

End WithPackage.
End Nav2.

(** A click on the [k]-th [Button] of a rendered tree, run against the flag
    [d] of the component that rendered it. *)
Definition clickRendered (v : VNode) (b : Browser) (d : bool) (k : nat) : Browser * bool :=
  match nth_error (select "Button" v) k with
  | Some btn =>
      match onClick (propsOf btn) with
      | Some h => dispatch h b d
      | None => (b, d)
      end
  | None => (b, d)
  end.

(** ** Quantities followed along a run *)

(** The flag behind the logo an instance shows. *)
Definition logoFlag (i : Instance) : bool :=
  match i with
  | ThemeSwitcherI d => d
  | NavI _ logo => logo
  end.

(** Is [e] a click on the theme control of a mounted [Nav]? *)
Definition isThemeClick (p : Page) (e : Event) : bool :=
  match e with
  | Click r k =>
      match nth_error (roots p) r with
      | Some (NavI _ _) => Nat.eqb k themeButton
      | _ => false
      end
  | _ => false
  end.

(** The number of clicks on a theme control along a run from [p]. *)
Fixpoint themeClicks (pkg : Package) (p : Page) (es : list Event) : nat :=
  match es with
  | [] => 0
  | e :: es' =>
      (if isThemeClick p e then 1 else 0) + themeClicks pkg (step pkg p e) es'
  end.

(** A [window.open] call as [Nav] makes them: a new browsing context
    without opener nor referrer, on one of the two configured targets. *)
Definition configuredCall (pkg : Package) (c : OpenCall) : Prop :=
  target c = "_blank" /\
  features c = "noopener noreferrer" /\
  (url c = homepage pkg \/ url c = readmore pkg).

(** * Properties *)

(** ** Class lists *)

Lemma contains_app (u : string) (l1 l2 : DOMTokenList) :
  contains u (l1 ++ l2)%list = contains u l1 || contains u l2.
Proof. unfold contains. apply existsb_app. Qed.

Lemma contains_remove_same (t : string) (l : DOMTokenList) :
  contains t (remove t l) = false.
Proof.
  induction l as [|x l IH]; simpl; [reflexivity|].
  destruct (String.eqb t x) eqn:E; simpl; [exact IH|].
  rewrite E. exact IH.
Qed.

Lemma contains_remove_other (t u : string) (l : DOMTokenList) :
  u <> t -> contains u (remove t l) = contains u l.
Proof.
  intros Hne. induction l as [|x l IH]; simpl; [reflexivity|].
  destruct (String.eqb t x) eqn:E; simpl.
  - apply String.eqb_eq in E. subst x.
    destruct (String.eqb u t) eqn:E'.
    + apply String.eqb_eq in E'. contradiction.
    + exact IH.
  - rewrite IH. reflexivity.
Qed.

Lemma remove_absent (t : string) (l : DOMTokenList) :
  contains t l = false -> remove t l = l.
Proof.
  induction l as [|x l IH]; simpl; [reflexivity|].
  intros H. apply orb_false_iff in H. destruct H as [Hx Hl].
  rewrite Hx. simpl. rewrite (IH Hl). reflexivity.
Qed.

Lemma toggle_flips (t : string) (l : DOMTokenList) :
  contains t (fst (toggle t l)) = negb (contains t l).
Proof.
  unfold toggle. destruct (contains t l) eqn:E; simpl.
  - apply contains_remove_same.
  - rewrite contains_app, E. simpl. rewrite String.eqb_refl. reflexivity.
Qed.

Lemma toggle_answer (t : string) (l : DOMTokenList) :
  snd (toggle t l) = contains t (fst (toggle t l)).
Proof.
  rewrite toggle_flips. unfold toggle. destruct (contains t l); reflexivity.
Qed.

Lemma toggle_other (t u : string) (l : DOMTokenList) :
  u <> t -> contains u (fst (toggle t l)) = contains u l.
Proof.
  intros Hne. unfold toggle. destruct (contains t l); simpl.
  - apply contains_remove_other. exact Hne.
  - rewrite contains_app. simpl.
    destruct (String.eqb u t) eqn:E.
    + apply String.eqb_eq in E. contradiction.
    + rewrite !orb_false_r. reflexivity.
Qed.

Lemma toggle_twice_contains (t u : string) (l : DOMTokenList) :
  contains u (fst (toggle t (fst (toggle t l)))) = contains u l.
Proof.
  destruct (String.eqb u t) eqn:E.
  - apply String.eqb_eq in E. subst u.
    rewrite !toggle_flips. apply negb_involutive.
  - apply String.eqb_neq in E. rewrite !toggle_other by exact E. reflexivity.
Qed.

(** From the light state the class list comes back token for token. *)
Lemma toggle_twice_absent (t : string) (l : DOMTokenList) :
  contains t l = false -> fst (toggle t (fst (toggle t l))) = l.
Proof.
  intros H. unfold toggle at 2. rewrite H. simpl.
  unfold toggle. rewrite contains_app, H. simpl. rewrite String.eqb_refl. simpl.
  unfold remove. rewrite filter_app. simpl. rewrite String.eqb_refl. simpl.
  rewrite app_nil_r. apply remove_absent. exact H.
Qed.

(** A class list stays a set under [toggle]. *)
Lemma toggle_NoDup (t : string) (l : DOMTokenList) :
  NoDup l -> NoDup (fst (toggle t l)).
Proof.
  intros Hl. unfold toggle. destruct (contains t l) eqn:E; simpl.
  - apply NoDup_filter. exact Hl.
  - apply NoDup_app; [exact Hl | constructor; [intros [] | constructor] |].
    intros x Hx [Hx'|[]]. subst x.
    assert (contains t l = true); [|congruence].
    apply existsb_exists. exists t. split; [exact Hx | apply String.eqb_refl].
Qed.

(** ** Effects and handlers *)

Lemma dispatch_ThemeSwitcher_effect (b : Browser) (d : bool) :
  dispatch ThemeSwitcher.useLayoutEffect b d = (b, marker b).
Proof. reflexivity. Qed.

Lemma dispatch_Nav_effect (b : Browser) (d : bool) :
  dispatch Nav.useLayoutEffect b d = (b, marker b).
Proof. reflexivity. Qed.

Lemma dispatch_toggleDark (b : Browser) (d : bool) :
  dispatch Nav.toggleDark b d = (toggled b, negb d).
Proof.
  unfold dispatch, Nav.toggleDark, bind, classList_toggle, toggled. simpl.
  destruct (toggle "dark" (classList (documentElement b))). reflexivity.
Qed.

Lemma dispatch_window_open (u : string) (b : Browser) (d : bool) :
  dispatch (window_open u "_blank" "noopener noreferrer") b d = (withOpened u b, d).
Proof. reflexivity. Qed.

Lemma marker_toggled (b : Browser) : marker (toggled b) = negb (marker b).
Proof. unfold marker, toggled. simpl. apply toggle_flips. Qed.

Lemma marker_withOpened (u : string) (b : Browser) : marker (withOpened u b) = marker b.
Proof. reflexivity. Qed.

Section Handlers.

Variable pkg : Package.

(** The three controls of [Nav] and what each runs. *)
Lemma Nav_handlers (d : bool) (logo : VNode) :
  map (fun n => (textContent n, onClick (propsOf n)))
      (select "Button" (Nav.render pkg d logo))
  = (map (fun n => (textContent n, onClick (propsOf n))) (select "Button" logo)
     ++ [ ("Prototype", Some (window_open (homepage pkg) "_blank" "noopener noreferrer"));
          ("Read More", Some (window_open (readmore pkg) "_blank" "noopener noreferrer"));
          (if d then "Light Mode" else "Dark Mode", Some Nav.toggleDark) ])%list.
Proof. destruct d; simpl; rewrite !app_nil_r, map_app; reflexivity. Qed.

Lemma click_homepage (b : Browser) (d logo : bool) :
  click pkg b (NavI d logo) 0 = (withOpened (homepage pkg) b, NavI d logo).
Proof. reflexivity. Qed.

Lemma click_readmore (b : Browser) (d logo : bool) :
  click pkg b (NavI d logo) 1 = (withOpened (readmore pkg) b, NavI d logo).
Proof. reflexivity. Qed.

Lemma click_theme (b : Browser) (d logo : bool) :
  click pkg b (NavI d logo) themeButton = (toggled b, NavI (negb d) logo).
Proof.
  transitivity (let (b1, d1) := dispatch Nav.toggleDark b d in (b1, NavI d1 logo)).
  - destruct d; reflexivity.
  - rewrite dispatch_toggleDark. reflexivity.
Qed.

(** The logo has no control: a click on it is lost. *)
Lemma click_ThemeSwitcher (b : Browser) (d : bool) (k : nat) :
  click pkg b (ThemeSwitcherI d) k = (b, ThemeSwitcherI d).
Proof. unfold click. simpl. destruct k; reflexivity. Qed.

Lemma label_of_flag (d logo : bool) :
  buttonLabel themeButton (renderInstance pkg (NavI d logo))
  = Some (if d then "Light Mode" else "Dark Mode").
Proof. destruct d; reflexivity. Qed.

Lemma icon_of_flag (d logo : bool) :
  buttonIcon themeButton (renderInstance pkg (NavI d logo))
  = Some (if d then "Sun" else "Moon").
Proof. destruct d; reflexivity. Qed.

Lemma logo_of_flag (d logo : bool) :
  imgSrcs (renderInstance pkg (NavI d logo))
  = [Some (if logo then "/botdw-white.png" else "/botdw-black.png")].
Proof. destruct d; reflexivity. Qed.

Lemma src_of_flag (d : bool) :
  imgSrcs (renderInstance pkg (ThemeSwitcherI d))
  = [Some (if d then "/botdw-white.png" else "/botdw-black.png")].
Proof. reflexivity. Qed.

End Handlers.

(** ** Lists updated in place *)

Lemma nth_error_updateNth_same {A} (n : nat) (x y : A) (l : list A) :
  nth_error l n = Some y -> nth_error (updateNth n x l) n = Some x.
Proof.
  revert n. induction l as [|h t IH]; intros [|n] H; simpl in *; try discriminate.
  - reflexivity.
  - apply IH. exact H.
Qed.

Lemma nth_error_updateNth_other {A} (n m : nat) (x : A) (l : list A) :
  m <> n -> nth_error (updateNth n x l) m = nth_error l m.
Proof.
  revert n m. induction l as [|h t IH]; intros [|n] [|m] H; simpl; try reflexivity.
  - contradiction.
  - apply IH. intros ->. apply H. reflexivity.
Qed.

Lemma updateNth_twice {A} (n : nat) (x y : A) (l : list A) :
  updateNth n x (updateNth n y l) = updateNth n x l.
Proof.
  revert n. induction l as [|h t IH]; intros [|n]; simpl; try reflexivity.
  rewrite IH. reflexivity.
Qed.

Lemma updateNth_self {A} (n : nat) (x : A) (l : list A) :
  nth_error l n = Some x -> updateNth n x l = l.
Proof.
  revert n. induction l as [|h t IH]; intros [|n] H; simpl in *; try discriminate.
  - congruence.
  - rewrite (IH _ H). reflexivity.
Qed.

(** ** Steps of the page *)

Lemma lastMounted_snoc (b : Browser) (l : list Instance) (i : Instance) :
  lastMounted {| env := b; roots := (l ++ [i])%list |} = Some i.
Proof. unfold lastMounted. simpl. rewrite rev_unit. reflexivity. Qed.

Section Steps.

Variable pkg : Package.

Lemma layoutEffects_reads (b : Browser) (i : Instance) :
  layoutEffects b i
  = (b, match i with
        | ThemeSwitcherI _ => ThemeSwitcherI (marker b)
        | NavI _ _ => NavI (marker b) (marker b)
        end).
Proof. destruct i; reflexivity. Qed.

Lemma step_mount (p : Page) (e : Event) (i0 : Instance) :
  firstRender e = Some i0 ->
  step pkg p e = {| env := env p;
                    roots := (roots p ++ [snd (layoutEffects (env p) i0)])%list |}.
Proof.
  intros H. destruct e; simpl in H; try discriminate;
    injection H as <-; reflexivity.
Qed.

Lemma step_click (p : Page) (r k : nat) (i : Instance) :
  nth_error (roots p) r = Some i ->
  step pkg p (Click r k)
  = {| env := fst (click pkg (env p) i k);
       roots := updateNth r (snd (click pkg (env p) i k)) (roots p) |}.
Proof.
  intros H. simpl. rewrite H. destruct (click pkg (env p) i k). reflexivity.
Qed.

Lemma step_click_theme (p : Page) (r : nat) (d logo : bool) :
  nth_error (roots p) r = Some (NavI d logo) ->
  step pkg p (Click r themeButton)
  = {| env := toggled (env p);
       roots := updateNth r (NavI (negb d) logo) (roots p) |}.
Proof.
  intros H. rewrite (step_click _ _ _ _ H), click_theme. reflexivity.
Qed.

End Steps.

(** * The claims *)

(** C1. Whatever the theme state [S], with [Nav]'s local flag agreeing with
    it, one click on the toggle control flips the marker of the document
    root (added when absent, removed when present) and, in the same step,
    [Nav]'s local flag, so that its label and icon are those of the
    opposite of [S]; no other class of the root changes. *)
Theorem toggle_once_flips (pkg : Package) (p : Page) (r : nat) (S d logo : bool) :
  marker (env p) = S ->
  nth_error (roots p) r = Some (NavI d logo) ->
  d = S ->
  let p' := step pkg p (Click r themeButton) in
  marker (env p') = negb S /\
  (forall u, u <> "dark" ->
     contains u (classList (documentElement (env p')))
     = contains u (classList (documentElement (env p)))) /\
  exists i',
    nth_error (roots p') r = Some i' /\
    navFlag i' = Some (negb S) /\
    buttonLabel themeButton (renderInstance pkg i')
    = Some (if negb S then "Light Mode" else "Dark Mode") /\
    buttonIcon themeButton (renderInstance pkg i')
    = Some (if negb S then "Sun" else "Moon").
Proof.
  intros Hm Hr Hd p'. subst p'. rewrite (step_click_theme _ _ _ _ _ Hr). simpl.
  split; [rewrite marker_toggled, Hm; reflexivity|].
  split; [intros u Hu; apply toggle_other; exact Hu|].
  exists (NavI (negb d) logo). subst d.
  split; [apply (nth_error_updateNth_same _ _ _ _ Hr)|].
  split; [reflexivity|].
  split; [apply label_of_flag | apply icon_of_flag].
Qed.

Lemma toggle_once_flips_witness :
  let p := run samplePkg (emptyPage darkBrowser) [MountNav] in
  marker (env p) = true /\
  marker (env (step samplePkg p (Click 0 themeButton))) = false.
Proof.
  split; [reflexivity|].
  apply (toggle_once_flips samplePkg
           (run samplePkg (emptyPage darkBrowser) [MountNav]) 0 true true true);
    reflexivity.
Defined.

(** C2. Whatever the marker is when a component mounts, what it displays
    once its mount-time read has run matches it: with the marker the logo
    is "/botdw-white.png" and the label "Light Mode", without it the logo
    is "/botdw-black.png" and the label "Dark Mode"; the logo is the
    render of the marker's value. *)
Theorem mount_displays_marker (pkg : Package) (p : Page) :
  let S := marker (env p) in
  (exists i,
     lastMounted (step pkg p MountThemeSwitcher) = Some i /\
     renderInstance pkg i = ThemeSwitcher.render S /\
     imgSrcs (renderInstance pkg i)
     = [Some (if S then "/botdw-white.png" else "/botdw-black.png")]) /\
  (exists i,
     lastMounted (step pkg p MountNav) = Some i /\
     renderInstance pkg i = Nav.render pkg S (ThemeSwitcher.render S) /\
     buttonLabel themeButton (renderInstance pkg i)
     = Some (if S then "Light Mode" else "Dark Mode") /\
     imgSrcs (renderInstance pkg i)
     = [Some (if S then "/botdw-white.png" else "/botdw-black.png")]).
Proof.
  intros S. split.
  - exists (ThemeSwitcherI S). split; [apply lastMounted_snoc|].
    split; [reflexivity | apply src_of_flag].
  - exists (NavI S S). split; [apply lastMounted_snoc|].
    split; [reflexivity|]. split; [apply label_of_flag | apply logo_of_flag].
Qed.

(** C3. Whatever the state [S], with [Nav]'s local flag agreeing with it,
    two clicks in a row on the toggle control bring the marker and what
    [Nav] displays back to [S]: the marker is [S] again, every mounted
    instance has the state it had, and so have the other classes of the
    root. *)
Theorem toggle_twice_returns (pkg : Package) (p : Page) (r : nat) (S d logo : bool) :
  marker (env p) = S ->
  nth_error (roots p) r = Some (NavI d logo) ->
  d = S ->
  let p'' := step pkg (step pkg p (Click r themeButton)) (Click r themeButton) in
  marker (env p'') = S /\
  (forall u, contains u (classList (documentElement (env p'')))
             = contains u (classList (documentElement (env p)))) /\
  opened (env p'') = opened (env p) /\
  roots p'' = roots p /\
  nth_error (roots p'') r = Some (NavI S logo) /\
  buttonLabel themeButton (renderInstance pkg (NavI S logo))
  = Some (if S then "Light Mode" else "Dark Mode").
Proof.
  intros Hm Hr Hd p''. subst p''.
  rewrite (step_click_theme _ _ _ _ _ Hr).
  rewrite (step_click_theme _ _ r (negb d) logo)
    by (apply (nth_error_updateNth_same _ _ _ _ Hr)).
  simpl. rewrite updateNth_twice, negb_involutive, (updateNth_self _ _ _ Hr).
  split; [rewrite !marker_toggled, negb_involutive; exact Hm|].
  split; [intros u; apply toggle_twice_contains|].
  split; [reflexivity|]. split; [reflexivity|].
  subst d. split; [exact Hr | apply label_of_flag].
Qed.

Lemma toggle_twice_returns_witness :
  let p := run samplePkg (emptyPage lightBrowser) [MountThemeSwitcher; MountNav] in
  marker (env p) = false /\
  roots (step samplePkg (step samplePkg p (Click 1 themeButton)) (Click 1 themeButton))
  = roots p.
Proof.
  split; [reflexivity|].
  apply (toggle_twice_returns samplePkg
           (run samplePkg (emptyPage lightBrowser) [MountThemeSwitcher; MountNav])
           1 false false false); reflexivity.
Defined.

(** C4. From the light state (no marker, [Nav] mounted with its logo, every
    local flag false), a click on the toggle control sets the marker and
    turns the label into "Light Mode"; the logo is expected to swap to
    "/botdw-white.png", but the [ThemeSwitcher] under [Nav] keeps the flag
    it read at mount and still renders "/botdw-black.png". *)
Theorem click_from_light_keeps_logo (pkg : Package) :
  let p0 := run pkg (emptyPage lightBrowser) [MountNav] in
  let p := step pkg p0 (Click 0 themeButton) in
  marker (env p0) = false /\
  map localFlags (roots p0) = [[false; false]] /\
  marker (env p) = true /\
  map (fun i => buttonLabel themeButton (renderInstance pkg i)) (roots p)
  = [Some "Light Mode"] /\
  map (fun i => imgSrcs (renderInstance pkg i)) (roots p)
  = [[Some "/botdw-black.png"]].
Proof. repeat split. Qed.

(** C5. The agreement of every local flag with the marker does not hold at
    every reachable state: after [Nav] has mounted on a page without the
    marker and its toggle control has been clicked once, the marker is
    there, [Nav]'s own flag says so, and the flag of the [ThemeSwitcher]
    mounted with it still says it is not. *)
Theorem reachable_state_with_drift (pkg : Package) :
  let p := run pkg (emptyPage lightBrowser) [MountNav; Click 0 themeButton] in
  marker (env p) = true /\
  map localFlags (roots p) = [[true; false]] /\
  ~ Forall (fun i => Forall (fun f => f = marker (env p)) (localFlags i)) (roots p).
Proof.
  repeat split. intros H. simpl in H.
  inversion H as [|i l Hi _]; subst. inversion Hi as [|f fs _ Hlogo]; subst.
  inversion Hlogo as [|f fs Hf _]; subst. discriminate Hf.
Qed.

(** C6. With the marker fixed, two instances mounted independently (on the
    same page one after the other, or on two pages that share nothing but
    the value of the marker) hold the same local flags after their
    mount-time reads, and two instances of the same component are equal:
    the state after mount is a function of the marker alone. *)
Theorem mount_reads_agree (pkg : Package) (p1 p2 : Page) (e1 e2 : Event)
    (j1 j2 : Instance) :
  marker (env p1) = marker (env p2) ->
  firstRender e1 = Some j1 ->
  firstRender e2 = Some j2 ->
  exists i1 i2,
    lastMounted (step pkg p1 e1) = Some i1 /\
    lastMounted (step pkg p2 e2) = Some i2 /\
    lastMounted (step pkg (step pkg p1 e1) e2) = Some i2 /\
    (forall f1 f2, In f1 (localFlags i1) -> In f2 (localFlags i2) -> f1 = f2) /\
    (forall f, In f (localFlags i1) -> f = marker (env p1)) /\
    (e1 = e2 -> i1 = i2).
Proof.
  intros Hm H1 H2.
  rewrite (step_mount pkg p1 e1 j1 H1), (step_mount pkg p2 e2 j2 H2).
  rewrite (step_mount pkg _ e2 j2 H2). simpl env.
  rewrite !layoutEffects_reads, <- Hm. simpl snd.
  eexists. eexists.
  split; [apply lastMounted_snoc|]. split; [apply lastMounted_snoc|].
  split; [apply lastMounted_snoc|].
  assert (A1 : forall f, In f (localFlags match j1 with
                                | ThemeSwitcherI _ => ThemeSwitcherI (marker (env p1))
                                | NavI _ _ => NavI (marker (env p1)) (marker (env p1))
                                end) -> f = marker (env p1)).
  { intros f. destruct j1; simpl; intuition congruence. }
  assert (A2 : forall f, In f (localFlags match j2 with
                                | ThemeSwitcherI _ => ThemeSwitcherI (marker (env p1))
                                | NavI _ _ => NavI (marker (env p1)) (marker (env p1))
                                end) -> f = marker (env p1)).
  { intros f. destruct j2; simpl; intuition congruence. }
  split; [intros f1 f2 F1 F2; rewrite (A1 _ F1), (A2 _ F2); reflexivity|].
  split; [exact A1|].
  intros ->. rewrite H1 in H2. injection H2 as ->. reflexivity.
Qed.

Lemma mount_reads_agree_witness :
  exists i1 i2,
    lastMounted (step samplePkg (emptyPage darkBrowser) MountThemeSwitcher) = Some i1 /\
    lastMounted (step samplePkg (emptyPage darkBrowser) MountNav) = Some i2 /\
    lastMounted (step samplePkg (step samplePkg (emptyPage darkBrowser) MountThemeSwitcher)
                   MountNav) = Some i2 /\
    (forall f1 f2, In f1 (localFlags i1) -> In f2 (localFlags i2) -> f1 = f2) /\
    (forall f, In f (localFlags i1) -> f = marker (env (emptyPage darkBrowser))) /\
    (MountThemeSwitcher = MountNav -> i1 = i2).
Proof.
  apply (mount_reads_agree samplePkg (emptyPage darkBrowser) (emptyPage darkBrowser)
           MountThemeSwitcher MountNav
           (ThemeSwitcherI false) (NavI false false)); reflexivity.
Defined.

(** C7. The mount-time read leaves the document root as it was: after a
    component has mounted, the browser (the class list with its marker, and
    the contexts opened) is the one before, and the instances mounted
    before are untouched; the only change is the state of the instance that
    mounts. *)
Theorem mount_read_keeps_marker (pkg : Package) (p : Page) (e : Event) (j : Instance) :
  firstRender e = Some j ->
  fst (layoutEffects (env p) j) = env p /\
  env (step pkg p e) = env p /\
  marker (env (step pkg p e)) = marker (env p) /\
  exists i, roots (step pkg p e) = (roots p ++ [i])%list.
Proof.
  intros H. rewrite (step_mount pkg p e j H), layoutEffects_reads. simpl.
  repeat split. eexists. reflexivity.
Qed.

Lemma mount_read_keeps_marker_witness :
  env (step samplePkg (emptyPage darkBrowser) MountNav) = darkBrowser.
Proof.
  apply (mount_read_keeps_marker samplePkg (emptyPage darkBrowser) MountNav
           (NavI false false)).
  reflexivity.
Defined.

(** C8. Whatever the two link targets of the package file, a click on the
    "Prototype" control of a mounted [Nav] opens the homepage URL, and a
    click on its "Read More" control the read-more URL, each as one
    [window.open] call with target "_blank"; the document root, hence the
    marker, and the state of every mounted instance stay as they were. *)
Theorem links_open_configured (pkg : Package) (p : Page) (r : nat) (d logo : bool) :
  nth_error (roots p) r = Some (NavI d logo) ->
  let open u := {| url := u; target := "_blank"; features := "noopener noreferrer" |} in
  let ph := step pkg p (Click r 0) in
  let pr := step pkg p (Click r 1) in
  (buttonLabel 0 (renderInstance pkg (NavI d logo)) = Some "Prototype" /\
   opened (env ph) = (opened (env p) ++ [open (homepage pkg)])%list /\
   documentElement (env ph) = documentElement (env p) /\
   marker (env ph) = marker (env p) /\
   roots ph = roots p) /\
  (buttonLabel 1 (renderInstance pkg (NavI d logo)) = Some "Read More" /\
   opened (env pr) = (opened (env p) ++ [open (readmore pkg)])%list /\
   documentElement (env pr) = documentElement (env p) /\
   marker (env pr) = marker (env p) /\
   roots pr = roots p).
Proof.
  intros Hr open ph pr. subst ph pr.
  rewrite !(step_click pkg p r _ _ Hr), click_homepage, click_readmore. simpl.
  rewrite (updateNth_self _ _ _ Hr).
  split; (split; [destruct d; reflexivity | repeat split]).
Qed.

Lemma links_open_configured_witness :
  let p := run samplePkg (emptyPage darkBrowser) [MountNav] in
  opened (env (step samplePkg p (Click 0 1)))
  = [{| url := "https://example.org/readmore"; target := "_blank";
        features := "noopener noreferrer" |}].
Proof.
  apply (links_open_configured samplePkg
           (run samplePkg (emptyPage darkBrowser) [MountNav]) 0 true true).
  reflexivity.
Defined.

(** C9. Each local flag starts at [false], before the mount-time read:
    whatever the browser, marker present included, the first render of the
    logo shows "/botdw-black.png" and the first render of [Nav] the label
    "Dark Mode"; what is displayed follows the marker only once the layout
    effects have run. *)
Theorem first_render_is_light (pkg : Package) (b : Browser) :
  (exists i0,
     firstRender MountThemeSwitcher = Some i0 /\
     localFlags i0 = [false] /\
     imgSrcs (renderInstance pkg i0) = [Some "/botdw-black.png"] /\
     imgSrcs (renderInstance pkg (snd (layoutEffects b i0)))
     = [Some (if marker b then "/botdw-white.png" else "/botdw-black.png")]) /\
  (exists i0,
     firstRender MountNav = Some i0 /\
     localFlags i0 = [false; false] /\
     imgSrcs (renderInstance pkg i0) = [Some "/botdw-black.png"] /\
     buttonLabel themeButton (renderInstance pkg i0) = Some "Dark Mode" /\
     imgSrcs (renderInstance pkg (snd (layoutEffects b i0)))
     = [Some (if marker b then "/botdw-white.png" else "/botdw-black.png")] /\
     buttonLabel themeButton (renderInstance pkg (snd (layoutEffects b i0)))
     = Some (if marker b then "Light Mode" else "Dark Mode")).
Proof.
  split.
  - exists (ThemeSwitcherI false). repeat split.
  - exists (NavI false false). rewrite layoutEffects_reads.
    repeat split; destruct (marker b); reflexivity.
Qed.

(** C10. The toggle keeps the relation between [Nav]'s own flag and the
    marker as it finds it: when they agree before the click they agree
    after it, and when they differ before they differ after; a drifted
    copy is never brought back in step. *)
Theorem toggle_preserves_agreement (pkg : Package) (p : Page) (r : nat) (d logo : bool) :
  nth_error (roots p) r = Some (NavI d logo) ->
  let p' := step pkg p (Click r themeButton) in
  exists d',
    nth_error (roots p') r = Some (NavI d' logo) /\
    (d = marker (env p) -> d' = marker (env p')) /\
    (d <> marker (env p) -> d' <> marker (env p')).
Proof.
  intros Hr p'. subst p'. rewrite (step_click_theme _ _ _ _ _ Hr). simpl.
  exists (negb d). split; [apply (nth_error_updateNth_same _ _ _ _ Hr)|].
  rewrite marker_toggled.
  destruct d, (marker (env p)); split; intros H; try reflexivity;
    try discriminate; try (exfalso; apply H; reflexivity).
Qed.

Lemma toggle_preserves_agreement_witness :
  let p := {| env := darkBrowser; roots := [NavI false false] |} in
  exists d',
    nth_error (roots (step samplePkg p (Click 0 themeButton))) 0 = Some (NavI d' false) /\
    (false = marker (env p) -> d' = marker (env (step samplePkg p (Click 0 themeButton)))) /\
    (false <> marker (env p) -> d' <> marker (env (step samplePkg p (Click 0 themeButton)))).
Proof.
  apply (toggle_preserves_agreement samplePkg
           {| env := darkBrowser; roots := [NavI false false] |} 0 false false).
  reflexivity.
Defined.

(** ** A page with one [Nav] *)

Section SingleNav.

Variable pkg : Package.

Lemma click_Nav_cases (b : Browser) (d logo : bool) (k : nat) :
  click pkg b (NavI d logo) k = (withOpened (homepage pkg) b, NavI d logo) \/
  click pkg b (NavI d logo) k = (withOpened (readmore pkg) b, NavI d logo) \/
  click pkg b (NavI d logo) k = (toggled b, NavI (negb d) logo) \/
  click pkg b (NavI d logo) k = (b, NavI d logo).
Proof.
  destruct k as [|[|[|k]]].
  - left. apply click_homepage.
  - right. left. apply click_readmore.
  - right. right. left. apply click_theme.
  - right. right. right. destruct d, k; reflexivity.
Qed.

Lemma singleNav_step (p : Page) (e : Event) :
  noMountNav e = true -> singleNav p -> singleNav (step pkg p e).
Proof.
  intros He (d & logo & rest & Hroots & Hd & Hrest).
  destruct e as [| |r k]; [|discriminate|].
  - rewrite (step_mount pkg p MountThemeSwitcher _ eq_refl), layoutEffects_reads.
    exists d, logo, (rest ++ [ThemeSwitcherI (marker (env p))])%list. simpl.
    rewrite Hroots. split; [reflexivity|]. split; [exact Hd|].
    apply Forall_app. split; [exact Hrest|]. repeat constructor.
  - destruct (nth_error (roots p) r) as [i|] eqn:Hr.
    2:{ simpl. rewrite Hr. exists d, logo, rest. auto. }
    rewrite (step_click pkg p r k i Hr). rewrite Hroots in *.
    destruct r as [|r]; simpl in Hr.
    + injection Hr as <-.
      destruct (click_Nav_cases (env p) d logo k) as [E|[E|[E|E]]];
        rewrite E; cbn [fst snd updateNth].
      * exists d, logo, rest. auto.
      * exists d, logo, rest. auto.
      * exists (negb d), logo, rest. cbn [env roots].
        rewrite marker_toggled, <- Hd. auto.
      * exists d, logo, rest. auto.
    + assert (Hi : navFlag i = None).
      { apply nth_error_In in Hr. rewrite Forall_forall in Hrest. auto. }
      destruct i as [t|]; [|discriminate].
      rewrite click_ThemeSwitcher. simpl.
      rewrite (updateNth_self _ _ _ Hr).
      exists d, logo, rest. auto.
Qed.

Lemma singleNav_run (p : Page) (es : list Event) :
  forallb noMountNav es = true -> singleNav p -> singleNav (run pkg p es).
Proof.
  revert p. induction es as [|e es IH]; intros p Hes Hp; simpl in *; [exact Hp|].
  apply andb_true_iff in Hes. destruct Hes as [He Hes].
  apply IH; [exact Hes | apply singleNav_step; assumption].
Qed.

(** With a single [Nav], and whatever is clicked afterwards, [Nav]'s own
    flag agrees with the marker at every state the page reaches. *)
Theorem singleNav_invariant (b : Browser) (es : list Event) :
  forallb noMountNav es = true ->
  singleNav (run pkg (emptyPage b) (MountNav :: es)).
Proof.
  intros Hes. change (singleNav (run pkg (step pkg (emptyPage b) MountNav) es)).
  apply singleNav_run; [exact Hes|].
  exists (marker b), (marker b), []. repeat split. constructor.
Qed.

(** The logo of a [Nav] ignores the toggle: its flag after any click is
    the one before. *)
Theorem logo_ignores_click (b : Browser) (d logo : bool) (k : nat) :
  imgSrcs (renderInstance pkg (snd (click pkg b (NavI d logo) k)))
  = imgSrcs (renderInstance pkg (NavI d logo)).
Proof.
  destruct (click_Nav_cases b d logo k) as [E|[E|[E|E]]]; rewrite E; simpl snd;
    rewrite !logo_of_flag; reflexivity.
Qed.

End SingleNav.

(** * Further properties *)

(** ** One step, case by case *)

Lemma remove_toggle (t : string) (l : DOMTokenList) :
  remove t (fst (toggle t l)) = remove t l.
Proof.
  unfold toggle. destruct (contains t l) eqn:E; simpl.
  - apply remove_absent. apply contains_remove_same.
  - unfold remove. rewrite filter_app. simpl. rewrite String.eqb_refl. simpl.
    apply app_nil_r.
Qed.

Lemma xorb_negb_odd (x : bool) (n : nat) :
  xorb (negb x) (Nat.odd n) = xorb x (Nat.odd (S n)).
Proof.
  rewrite Nat.odd_succ, <- Nat.negb_odd. destruct x, (Nat.odd n); reflexivity.
Qed.

Section Cases.

Variable pkg : Package.

Lemma click_Nav_nth (b : Browser) (d logo : bool) (k : nat) :
  click pkg b (NavI d logo) k
  = match k with
    | 0 => (withOpened (homepage pkg) b, NavI d logo)
    | 1 => (withOpened (readmore pkg) b, NavI d logo)
    | 2 => (toggled b, NavI (negb d) logo)
    | _ => (b, NavI d logo)
    end.
Proof.
  destruct k as [|[|[|k]]].
  - apply click_homepage.
  - apply click_readmore.
  - apply click_theme.
  - destruct d, k; reflexivity.
Qed.

Lemma env_step (p : Page) (e : Event) :
  env (step pkg p e)
  = match e with
    | Click r k =>
        match nth_error (roots p) r with
        | Some (NavI _ _) =>
            match k with
            | 0 => withOpened (homepage pkg) (env p)
            | 1 => withOpened (readmore pkg) (env p)
            | 2 => toggled (env p)
            | _ => env p
            end
        | _ => env p
        end
    | _ => env p
    end.
Proof.
  destruct e as [| |r k].
  - rewrite (step_mount pkg p MountThemeSwitcher _ eq_refl). reflexivity.
  - rewrite (step_mount pkg p MountNav _ eq_refl). reflexivity.
  - destruct (nth_error (roots p) r) as [[t|d logo]|] eqn:Hr.
    + rewrite (step_click pkg p r k _ Hr), click_ThemeSwitcher. reflexivity.
    + rewrite (step_click pkg p r k _ Hr), click_Nav_nth.
      destruct k as [|[|[|k]]]; reflexivity.
    + simpl. rewrite Hr. reflexivity.
Qed.

Lemma logoFlag_click (b : Browser) (i : Instance) (k : nat) :
  logoFlag (snd (click pkg b i k)) = logoFlag i.
Proof.
  destruct i as [t|d logo].
  - rewrite click_ThemeSwitcher. reflexivity.
  - rewrite click_Nav_nth. destruct k as [|[|[|k]]]; reflexivity.
Qed.

Lemma imgSrcs_logoFlag (i : Instance) :
  imgSrcs (renderInstance pkg i)
  = [Some (if logoFlag i then "/botdw-white.png" else "/botdw-black.png")].
Proof. destruct i; [apply src_of_flag | apply logo_of_flag]. Qed.

Lemma logoFlag_step (p : Page) (e : Event) (r : nat) (i : Instance) :
  nth_error (roots p) r = Some i ->
  exists i', nth_error (roots (step pkg p e)) r = Some i' /\ logoFlag i' = logoFlag i.
Proof.
  intros Hr. destruct e as [| |r' k].
  - rewrite (step_mount pkg p MountThemeSwitcher _ eq_refl). simpl.
    exists i. split; [|reflexivity].
    rewrite nth_error_app1; [exact Hr|]. apply nth_error_Some. congruence.
  - rewrite (step_mount pkg p MountNav _ eq_refl). simpl.
    exists i. split; [|reflexivity].
    rewrite nth_error_app1; [exact Hr|]. apply nth_error_Some. congruence.
  - destruct (nth_error (roots p) r') as [j|] eqn:Hr'.
    2:{ simpl. rewrite Hr'. exists i. split; [exact Hr | reflexivity]. }
    rewrite (step_click pkg p r' k j Hr'). simpl.
    destruct (Nat.eq_dec r r') as [->|Hne].
    + rewrite Hr in Hr'. injection Hr' as <-.
      exists (snd (click pkg (env p) i k)).
      split; [apply (nth_error_updateNth_same _ _ _ _ Hr) | apply logoFlag_click].
    + exists i. split; [|reflexivity].
      rewrite nth_error_updateNth_other by exact Hne. exact Hr.
Qed.

Lemma marker_step (p : Page) (e : Event) :
  marker (env (step pkg p e)) = xorb (marker (env p)) (isThemeClick p e).
Proof.
  unfold marker at 1. rewrite env_step. unfold isThemeClick.
  destruct e as [| |r k]; try (rewrite xorb_false_r; reflexivity).
  destruct (nth_error (roots p) r) as [[t|d logo]|];
    try (rewrite xorb_false_r; reflexivity).
  destruct k as [|[|[|k]]]; simpl Nat.eqb;
    try (rewrite xorb_false_r; reflexivity).
  fold (marker (toggled (env p))). rewrite marker_toggled.
  destruct (marker (env p)); reflexivity.
Qed.

Lemma run_cons (p : Page) (e : Event) (es : list Event) :
  run pkg p (e :: es) = run pkg (step pkg p e) es.
Proof. reflexivity. Qed.

End Cases.

(** ** Along any run *)

Lemma singleNav_invariant_witness :
  singleNav (run samplePkg (emptyPage darkBrowser)
               [MountNav; Click 0 themeButton; MountThemeSwitcher; Click 0 0;
                Click 1 themeButton; Click 0 themeButton; Click 0 themeButton]).
Proof.
  apply (singleNav_invariant samplePkg darkBrowser
           [Click 0 themeButton; MountThemeSwitcher; Click 0 0;
            Click 1 themeButton; Click 0 themeButton; Click 0 themeButton]).
  reflexivity.
Defined.

(** The flag behind a logo is the one read at mount, for ever: whatever
    happens on the page afterwards (clicks on any control of any instance,
    other components mounting), a mounted [ThemeSwitcher], alone or under
    a [Nav], keeps its flag and shows the same image. *)
Theorem logo_frozen_after_mount (pkg : Package) (es : list Event) (p : Page)
    (r : nat) (i : Instance) :
  nth_error (roots p) r = Some i ->
  exists i',
    nth_error (roots (run pkg p es)) r = Some i' /\
    logoFlag i' = logoFlag i /\
    imgSrcs (renderInstance pkg i') = imgSrcs (renderInstance pkg i).
Proof.
  revert p i. induction es as [|e es IH]; intros p i Hr.
  - exists i. auto.
  - rewrite run_cons.
    destruct (logoFlag_step pkg p e r i Hr) as (j & Hj & Ej).
    destruct (IH _ _ Hj) as (i' & Hi' & Ei' & _).
    exists i'. split; [exact Hi'|]. split; [congruence|].
    rewrite !imgSrcs_logoFlag. rewrite Ei', Ej. reflexivity.
Qed.

Lemma logo_frozen_after_mount_witness :
  exists i',
    nth_error (roots (run samplePkg (step samplePkg (emptyPage lightBrowser) MountNav)
                        [Click 0 themeButton; MountThemeSwitcher; Click 0 themeButton;
                         Click 0 themeButton])) 0 = Some i' /\
    logoFlag i' = logoFlag (NavI false false) /\
    imgSrcs (renderInstance samplePkg i')
    = imgSrcs (renderInstance samplePkg (NavI false false)).
Proof.
  apply (logo_frozen_after_mount samplePkg
           [Click 0 themeButton; MountThemeSwitcher; Click 0 themeButton;
            Click 0 themeButton]
           (step samplePkg (emptyPage lightBrowser) MountNav) 0 (NavI false false)).
  reflexivity.
Defined.

(** The document root changes on one kind of event only: a click on the
    theme control of a mounted [Nav] toggles [dark]; every other event (a
    mount, a click on a link, on a logo, on nothing) leaves the root as it
    is. *)
Theorem root_changes_only_on_theme_click (pkg : Package) (p : Page) (e : Event) :
  documentElement (env (step pkg p e))
  = (if isThemeClick p e then documentElement (toggled (env p))
     else documentElement (env p)) /\
  marker (env (step pkg p e)) = xorb (marker (env p)) (isThemeClick p e).
Proof.
  split; [|apply marker_step].
  rewrite env_step. unfold isThemeClick.
  destruct e as [| |r k]; try reflexivity.
  destruct (nth_error (roots p) r) as [[t|d logo]|]; try reflexivity.
  destruct k as [|[|[|k]]]; reflexivity.
Qed.

(** The marker after a run is the marker before it, flipped once per click
    on a theme control: it is the initial one exactly when the number of
    such clicks is even. *)
Theorem marker_follows_theme_clicks (pkg : Package) (es : list Event) (p : Page) :
  marker (env (run pkg p es))
  = xorb (marker (env p)) (Nat.odd (themeClicks pkg p es)).
Proof.
  revert p. induction es as [|e es IH]; intros p.
  - simpl. rewrite xorb_false_r. reflexivity.
  - rewrite run_cons, IH. simpl themeClicks.
    assert (H := marker_step pkg p e).
    rewrite H. destruct (isThemeClick p e).
    + change (1 + themeClicks pkg (step pkg p e) es)
        with (S (themeClicks pkg (step pkg p e) es)).
      rewrite <- xorb_negb_odd. destruct (marker (env p)); reflexivity.
    + rewrite xorb_false_r. reflexivity.
Qed.

(** [n] clicks in a row on the theme control of a [Nav] flip the marker and
    [Nav]'s own flag [n] times: both are back where they were when [n] is
    even, both are inverted when [n] is odd; the logo flag stays. *)
Theorem toggle_n_times (pkg : Package) (n : nat) (p : Page) (r : nat) (d logo : bool) :
  nth_error (roots p) r = Some (NavI d logo) ->
  let p' := run pkg p (repeat (Click r themeButton) n) in
  marker (env p') = xorb (marker (env p)) (Nat.odd n) /\
  nth_error (roots p') r = Some (NavI (xorb d (Nat.odd n)) logo).
Proof.
  revert p d. induction n as [|n IH]; intros p d Hr p'; subst p'.
  - simpl. rewrite !xorb_false_r. auto.
  - simpl repeat. rewrite run_cons, (step_click_theme _ _ _ _ _ Hr).
    match goal with |- context [run pkg ?q _] =>
      assert (Hq : nth_error (roots q) r = Some (NavI (negb d) logo))
        by (apply (nth_error_updateNth_same _ _ _ _ Hr));
      destruct (IH q (negb d) Hq) as [Hm Hn]
    end.
    rewrite Hm, Hn. cbn [env]. rewrite marker_toggled, !xorb_negb_odd. auto.
Qed.

Lemma toggle_n_times_witness :
  let p := step samplePkg (emptyPage lightBrowser) MountNav in
  marker (env (run samplePkg p (repeat (Click 0 themeButton) 5))) = true /\
  nth_error (roots (run samplePkg p (repeat (Click 0 themeButton) 5))) 0
  = Some (NavI true false).
Proof.
  apply (toggle_n_times samplePkg 5
           (step samplePkg (emptyPage lightBrowser) MountNav) 0 false false).
  reflexivity.
Defined.

Section Frames.

Variable pkg : Package.

Lemma opened_step (p : Page) (e : Event) :
  exists new,
    opened (env (step pkg p e)) = (opened (env p) ++ new)%list /\
    Forall (configuredCall pkg) new /\
    length new <= 1.
Proof.
  assert (Hnone : exists new,
             opened (env p) = (opened (env p) ++ new)%list /\
             Forall (configuredCall pkg) new /\ length new <= 1).
  { exists []. rewrite app_nil_r. repeat split; [constructor | simpl; lia]. }
  assert (Hone : forall u, u = homepage pkg \/ u = readmore pkg ->
             exists new,
               opened (withOpened u (env p)) = (opened (env p) ++ new)%list /\
               Forall (configuredCall pkg) new /\ length new <= 1).
  { intros u Hu. eexists. split; [reflexivity|]. split; [|simpl; lia].
    constructor; [|constructor]. unfold configuredCall. simpl. auto. }
  rewrite env_step. destruct e as [| |r k]; try exact Hnone.
  destruct (nth_error (roots p) r) as [[t|d logo]|]; try exact Hnone.
  destruct k as [|[|[|k]]]; try exact Hnone.
  - apply Hone. left. reflexivity.
  - apply Hone. right. reflexivity.
Qed.

Lemma other_classes_step (p : Page) (e : Event) :
  remove "dark" (classList (documentElement (env (step pkg p e))))
  = remove "dark" (classList (documentElement (env p))).
Proof.
  rewrite env_step. destruct e as [| |r k]; try reflexivity.
  destruct (nth_error (roots p) r) as [[t|d logo]|]; try reflexivity.
  destruct k as [|[|[|k]]]; try reflexivity.
  apply remove_toggle.
Qed.

End Frames.

(** Every browsing context the page opens is one [Nav] is configured for:
    along any run the [window.open] calls made so far are kept, each event
    adds at most one, and each new call has target "_blank", features
    "noopener noreferrer" and the homepage or the read-more URL of the
    package file. *)
Theorem opened_calls_are_configured (pkg : Package) (es : list Event) (p : Page) :
  exists new,
    opened (env (run pkg p es)) = (opened (env p) ++ new)%list /\
    Forall (configuredCall pkg) new /\
    length new <= length es.
Proof.
  revert p. induction es as [|e es IH]; intros p.
  - exists []. simpl. rewrite app_nil_r. repeat split; [constructor | lia].
  - rewrite run_cons.
    destruct (opened_step pkg p e) as (n1 & E1 & F1 & L1).
    destruct (IH (step pkg p e)) as (n2 & E2 & F2 & L2).
    exists (n1 ++ n2)%list. rewrite E2, E1, app_assoc.
    split; [reflexivity|]. split; [apply Forall_app; auto|].
    rewrite length_app. simpl. lia.
Qed.

(** No event touches a class of the document root other than [dark]: along
    any run the other classes are the same, in the same order. *)
Theorem other_classes_kept (pkg : Package) (es : list Event) (p : Page) :
  remove "dark" (classList (documentElement (env (run pkg p es))))
  = remove "dark" (classList (documentElement (env p))).
Proof.
  revert p. induction es as [|e es IH]; intros p; [reflexivity|].
  rewrite run_cons, IH. apply other_classes_step.
Qed.

(** Two [Nav] bars on one page drift apart: a click on the theme control of
    one flips the marker and leaves the other as it was, so that a second
    [Nav] that agreed with the marker no longer does, and its label offers
    the theme that is already on. *)
Theorem second_Nav_drifts (pkg : Package) (p : Page) (r1 r2 : nat)
    (d1 l1 d2 l2 : bool) :
  nth_error (roots p) r1 = Some (NavI d1 l1) ->
  nth_error (roots p) r2 = Some (NavI d2 l2) ->
  r1 <> r2 ->
  d2 = marker (env p) ->
  let p' := step pkg p (Click r1 themeButton) in
  nth_error (roots p') r2 = Some (NavI d2 l2) /\
  d2 <> marker (env p') /\
  buttonLabel themeButton (renderInstance pkg (NavI d2 l2))
  = Some (if marker (env p') then "Dark Mode" else "Light Mode").
Proof.
  intros H1 H2 Hne Hd p'. subst p'.
  rewrite (step_click_theme _ _ _ _ _ H1). cbn [env roots].
  rewrite marker_toggled, label_of_flag, <- Hd.
  split; [rewrite nth_error_updateNth_other by auto; exact H2|].
  destruct d2; split; (reflexivity || discriminate).
Qed.

Lemma second_Nav_drifts_witness :
  let p := run samplePkg (emptyPage lightBrowser) [MountNav; MountNav] in
  nth_error (roots (step samplePkg p (Click 0 themeButton))) 1 = Some (NavI false false) /\
  false <> marker (env (step samplePkg p (Click 0 themeButton))).
Proof.
  destruct (second_Nav_drifts samplePkg
              (run samplePkg (emptyPage lightBrowser) [MountNav; MountNav])
              0 1 false false false false) as (A & B & _);
    [reflexivity | reflexivity | discriminate | reflexivity |].
  split; [exact A | exact B].
Defined.

(** ** The version with one link *)

(** The controls of the second version of [Nav]: the first one ("Star on
    GitHub") opens the homepage in a new browsing context and changes
    neither the root nor the flag, the second one is the theme control, and
    there is no other: nothing in this version opens the read-more URL. *)
Theorem Nav2_controls (pkg : Package) (b : Browser) (d logo : bool) (k : nat) :
  let v := Nav2.render pkg d (ThemeSwitcher.render logo) in
  clickRendered v b d k
  = match k with
    | 0 => (withOpened (homepage pkg) b, d)
    | 1 => (toggled b, negb d)
    | _ => (b, d)
    end /\
  map textContent (select "Button" v)
  = ["Star on GitHub"; if d then "Light Mode" else "Dark Mode"].
Proof.
  intros v. subst v. split.
  - destruct k as [|[|k]].
    + reflexivity.
    + transitivity (dispatch Nav.toggleDark b d);
        [destruct d; reflexivity | apply dispatch_toggleDark].
    + destruct d, k; reflexivity.
  - destruct d; reflexivity.
Qed.

(** The two versions of [Nav] have the same theme control: on the same
    state, a click on it has the same effect in both (the marker and the
    flag flipped), and both show the same label, the same icon and the same
    logo; their first link is the same too. *)
Theorem Nav_versions_agree (pkg : Package) (b : Browser) (d logo : bool) :
  let v1 := Nav.render pkg d (ThemeSwitcher.render logo) in
  let v2 := Nav2.render pkg d (ThemeSwitcher.render logo) in
  clickRendered v2 b d 1 = clickRendered v1 b d themeButton /\
  clickRendered v1 b d themeButton = (toggled b, negb d) /\
  clickRendered v2 b d 0 = clickRendered v1 b d 0 /\
  buttonLabel 1 v2 = buttonLabel themeButton v1 /\
  buttonIcon 1 v2 = buttonIcon themeButton v1 /\
  imgSrcs v2 = imgSrcs v1.
Proof.
  intros v1 v2. subst v1 v2.
  assert (H : clickRendered (Nav.render pkg d (ThemeSwitcher.render logo)) b d themeButton
              = (toggled b, negb d)).
  { transitivity (dispatch Nav.toggleDark b d);
      [destruct d; reflexivity | apply dispatch_toggleDark]. }
  split; [|split; [exact H|]].
  - rewrite H. transitivity (dispatch Nav.toggleDark b d);
      [destruct d; reflexivity | apply dispatch_toggleDark].
  - repeat split; destruct d; reflexivity.
Qed.

(** In the second version too, the flag after mount is the marker and the
    read leaves the browser alone, and two clicks on the theme control
    bring back the marker, the flag and the membership of every class. *)
Theorem Nav2_mount_and_round_trip (pkg : Package) (b : Browser) (logo : bool) :
  let (b0, d0) := dispatch Nav2.useLayoutEffect b Nav2.useState_init in
  let (b1, d1) := clickRendered (Nav2.render pkg d0 (ThemeSwitcher.render logo)) b0 d0 1 in
  let (b2, d2) := clickRendered (Nav2.render pkg d1 (ThemeSwitcher.render logo)) b1 d1 1 in
  b0 = b /\ d0 = marker b /\
  marker b1 = negb (marker b) /\ d1 = negb (marker b) /\
  marker b2 = marker b /\ d2 = marker b /\
  opened b2 = opened b /\
  forall u, contains u (classList (documentElement b2))
            = contains u (classList (documentElement b)).
Proof.
  assert (H : forall b' d', clickRendered (Nav2.render pkg d' (ThemeSwitcher.render logo)) b' d' 1
                            = (toggled b', negb d')).
  { intros b' d'. transitivity (dispatch Nav.toggleDark b' d');
      [destruct d'; reflexivity | apply dispatch_toggleDark]. }
  change (dispatch Nav2.useLayoutEffect b Nav2.useState_init) with (b, marker b).
  cbv iota. rewrite H. cbv iota. rewrite H. cbv iota.
  rewrite !marker_toggled, !negb_involutive.
  repeat split. intros u. apply toggle_twice_contains.
Qed.

(** ** When a logo is right *)

Lemma logo_agreement_run (pkg : Package) (es : list Event) (p : Page)
    (r : nat) (i : Instance) :
  nth_error (roots p) r = Some i ->
  exists i',
    nth_error (roots (run pkg p es)) r = Some i' /\
    Bool.eqb (logoFlag i') (marker (env (run pkg p es)))
    = xorb (Bool.eqb (logoFlag i) (marker (env p))) (Nat.odd (themeClicks pkg p es)).
Proof.
  revert p i. induction es as [|e es IH]; intros p i Hr.
  - exists i. simpl. rewrite xorb_false_r. auto.
  - rewrite run_cons.
    destruct (logoFlag_step pkg p e r i Hr) as (j & Hj & Ej).
    destruct (IH _ _ Hj) as (i' & Hi' & Ei').
    exists i'. split; [exact Hi'|]. rewrite Ei', Ej, marker_step. simpl themeClicks.
    destruct (isThemeClick p e).
    + change (1 + themeClicks pkg (step pkg p e) es)
        with (S (themeClicks pkg (step pkg p e) es)).
      rewrite <- xorb_negb_odd.
      destruct (logoFlag i), (marker (env p)),
        (Nat.odd (themeClicks pkg (step pkg p e) es)); reflexivity.
    + rewrite xorb_false_r. reflexivity.
Qed.

(** A logo that agrees with the marker (as every logo does when it mounts)
    shows the right image afterwards exactly when the theme controls of the
    page have been clicked an even number of times since. *)
Theorem logo_right_iff_even (pkg : Package) (es : list Event) (p : Page)
    (r : nat) (i : Instance) :
  nth_error (roots p) r = Some i ->
  logoFlag i = marker (env p) ->
  exists i',
    nth_error (roots (run pkg p es)) r = Some i' /\
    (logoFlag i' = marker (env (run pkg p es))
     <-> Nat.even (themeClicks pkg p es) = true) /\
    imgSrcs (renderInstance pkg i')
    = [Some (if xorb (marker (env (run pkg p es))) (Nat.odd (themeClicks pkg p es))
             then "/botdw-white.png" else "/botdw-black.png")].
Proof.
  intros Hr Ha.
  destruct (logo_agreement_run pkg es p r i Hr) as (i' & Hi' & E).
  exists i'. split; [exact Hi'|].
  rewrite Ha, Bool.eqb_reflx in E. rewrite imgSrcs_logoFlag, <- Nat.negb_odd.
  destruct (logoFlag i'), (marker (env (run pkg p es))),
    (Nat.odd (themeClicks pkg p es)); simpl in *;
    try discriminate; (split; [split; congruence | reflexivity]).
Qed.

Lemma logo_right_iff_even_witness :
  let p := step samplePkg (emptyPage darkBrowser) MountNav in
  let es := [Click 0 themeButton; Click 0 0; Click 0 themeButton; Click 0 themeButton] in
  exists i',
    nth_error (roots (run samplePkg p es)) 0 = Some i' /\
    (logoFlag i' = marker (env (run samplePkg p es))
     <-> Nat.even (themeClicks samplePkg p es) = true) /\
    imgSrcs (renderInstance samplePkg i')
    = [Some (if xorb (marker (env (run samplePkg p es)))
                  (Nat.odd (themeClicks samplePkg p es))
             then "/botdw-white.png" else "/botdw-black.png")].
Proof.
  apply (logo_right_iff_even samplePkg
           [Click 0 themeButton; Click 0 0; Click 0 themeButton; Click 0 themeButton]
           (step samplePkg (emptyPage darkBrowser) MountNav) 0 (NavI true true));
    reflexivity.
Defined.
